(** * Verification of the generic query-filter builder of the identity manager

    Shallow embedding of [pkg/db/common.go] (the [Chain] filter builder and
    the pagination helpers) and of [ComparePassword] from
    [pkg/service/im/resource/user_password_control.go]. *)

From Stdlib Require Import String Ascii List Bool ZArith NArith Lia.
Import ListNotations.
Open Scope string_scope.

(* ------------------------------------------------------------------ *)
(** ** Go standard-library string helpers *)

Module GoStrings.

(** [strings.Split(s, ",")]: for a non-empty separator Go returns at least
    one piece ([strings.Split("", ",") = [""]]). *)
Fixpoint SplitComma (s : string) : list string :=
  match s with
  | EmptyString => [EmptyString]
  | String c s' =>
      let r := SplitComma s' in
      if Ascii.eqb c "," then EmptyString :: r
      else match r with
           | h :: t => String c h :: t
           | [] => [String c EmptyString]
           end
  end.

(** [strings.Join(elems, sep)] *)
Fixpoint Join (elems : list string) (sep : string) : string :=
  match elems with
  | [] => EmptyString
  | [x] => x
  | x :: xs => x ++ sep ++ Join xs sep
  end.

(** [strings.HasSuffix(s, suffix)] *)
Definition HasSuffix (s suffix : string) : bool :=
  (String.length suffix <=? String.length s)%nat &&
  String.eqb (substring (String.length s - String.length suffix) (String.length suffix) s) suffix.

End GoStrings.
Import GoStrings.

(* ------------------------------------------------------------------ *)
(** ** Helpers of [pkg/util/stringutil] (not part of the sources given) *)

Module StringUtil.

(** Modelled from the spec: [stringutil.Contains(list, s)], the membership
    test the spec uses for "the table's indexed-column set contains that
    column" and "only the columns present in a table's full column list". *)
Fixpoint Contains (l : list string) (s : string) : bool :=
  match l with
  | [] => false
  | x :: xs => String.eqb x s || Contains xs s
  end.

(** Modelled from the spec: [stringutil.SimplifyString(v)], the step that
    "neutralizes" a search term against the wildcard and escape
    metacharacters of the [LIKE] operator before it is placed inside a
    ["%...%"] pattern: each of [\\], [%] and [_] is preceded by the escape
    character [\\]. *)
Definition is_like_meta (c : ascii) : bool :=
  Ascii.eqb c "\" || Ascii.eqb c "%" || Ascii.eqb c "_".

Fixpoint SimplifyString (s : string) : string :=
  match s with
  | EmptyString => EmptyString
  | String c s' =>
      if is_like_meta c then String "\" (String c (SimplifyString s'))
      else String c (SimplifyString s')
  end.

End StringUtil.
Import StringUtil.

(* ------------------------------------------------------------------ *)
(** ** The store's [LIKE] operator (default escape character [\\])

    Used only to state what a pattern built by the filter builder matches:
    [%] matches any string, [_] any one character, [\\c] the character
    [c] itself, any other character itself. *)

Module Like.

Fixpoint like (p s : string) {struct p} : bool :=
  match p with
  | EmptyString => match s with EmptyString => true | _ => false end
  | String c p' =>
      if Ascii.eqb c "%" then
        (fix any (s : string) : bool :=
           like p' s || match s with
                        | EmptyString => false
                        | String _ s' => any s'
                        end) s
      else if Ascii.eqb c "_" then
        match s with EmptyString => false | String _ s' => like p' s' end
      else if Ascii.eqb c "\" then
        match p' with
        | EmptyString =>
            match s with
            | String d EmptyString => Ascii.eqb d "\"
            | _ => false
            end
        | String e p'' =>
            match s with
            | EmptyString => false
            | String d s' => Ascii.eqb e d && like p'' s'
            end
        end
      else
        match s with
        | EmptyString => false
        | String d s' => Ascii.eqb c d && like p' s'
        end
  end.

End Like.

(* ------------------------------------------------------------------ *)
(** ** Pagination: [GetLimit], [GetOffset], [Get*FromRequest] *)

Module Pagination.
Open Scope N_scope.

(** Go [uint32] values are naturals below [2^32]; [n < 0] never holds. *)
Definition DefaultOffset : N := 0.
Definition DefaultLimit : N := 20.
Definition DefaultSelectLimit : N := 200.

Definition GetLimit (n : N) : N :=
  let n := if n <? 0 then 0 else n in
  if DefaultSelectLimit <? n then DefaultSelectLimit else n.

Definition GetOffset (n : N) : N :=
  if n <? 0 then 0 else n.

(** A request's [GetOffset()] / [GetLimit()] results. *)
Record Page := { req_offset : N; req_limit : N }.

Definition GetOffsetFromRequest (req : Page) : N :=
  let n := req_offset req in
  if n =? 0 then DefaultOffset else GetOffset n.

Definition GetLimitFromRequest (req : Page) : N :=
  let n := req_limit req in
  if n =? 0 then DefaultLimit else GetLimit n.

End Pagination.

(* ------------------------------------------------------------------ *)
(** ** Go slices and [GetDisplayColumns] *)

Module Columns.

(** A Go [[]string]: [None] is the nil slice, [Some l] a non-nil slice. *)
Definition Slice := option (list string).

Definition elems (s : Slice) : list string :=
  match s with None => [] | Some l => l end.

(** [append] on a slice: appending to nil allocates a non-nil slice. *)
Definition append (s : Slice) (x : string) : Slice :=
  Some (elems s ++ [x])%list.

Definition GetDisplayColumns (displayColumns wholeColumns : Slice) : Slice :=
  match displayColumns with
  | None => wholeColumns
  | Some [] => None
  | Some dcs =>
      fold_left
        (fun newDisplayColumns column =>
           if Contains (elems wholeColumns) column
           then append newDisplayColumns column
           else newDisplayColumns)
        dcs None
  end.

End Columns.

(* ------------------------------------------------------------------ *)
(** ** Request values and [getReqValue] *)

Module Filter.

(** The dynamic type of a request field's value ([field.Value()]) as the
    type switch of [getReqValue] sees it. [PStringValue None] and
    [PInt32Value None] are nil [*wrappers.StringValue] /
    [*wrappers.Int32Value] pointers; [PStringList] is a [[]string] (a nil
    slice is the empty list); [POther] is any other type. *)
Inductive Param :=
| PString (s : string)
| PStringValue (p : option string)
| PInt32Value (p : option Z)
| PStringList (l : list string)
| POther.

(** The non-nil results of [getReqValue]: a [[]string] or a [[]int32]. *)
Inductive ReqValue :=
| VStrings (l : list string)
| VInt32s (l : list Z).

Definition nonEmpty (v : string) : bool := negb (String.eqb v "").

Definition getReqValue (param : Param) : option ReqValue :=
  match param with
  | PString value => if String.eqb value "" then None else Some (VStrings [value])
  | PStringValue None => None
  | PStringValue (Some v) => Some (VStrings [v])
  | PInt32Value None => None
  | PInt32Value (Some v) => Some (VInt32s [v])
  | PStringList value =>
      let values := filter nonEmpty value in
      match values with
      | [] => None
      | _ => Some (VStrings values)
      end
  | POther => None
  end.

(** A field of the request structure: its struct tag as key/value pairs
    ([reflect.StructTag]) and its value. *)
Record Field := { field_tags : list (string * string); field_value : Param }.

Definition TagName := "json".
Definition SearchWordColumnName := "search_word".
Definition RootGroupIdColumnName := "root_group_id".

(** [field.Tag(key)]: the tag value, [""] when the key is absent. *)
Definition Tag (f : Field) (key : string) : string :=
  match find (fun kv => String.eqb (fst kv) key) (field_tags f) with
  | Some (_, v) => v
  | None => ""
  end.

Definition getFieldName (field : Field) : string :=
  let tag := Tag field TagName in
  let t := SplitComma tag in
  match t with
  | [] => "-"
  | t0 :: _ => t0
  end.

(** The state of the query chain: the conditions accumulated on the
    underlying [gorm.DB]. [WhereQ q args] is [Where(q, args...)],
    [OrderQ o] is [Order(o)]. *)
Inductive Clause :=
| WhereQ (q : string) (args : list ReqValue)
| OrderQ (o : string).

Definition Chain := list Clause.

(** gorm drops a [Where("")] when it renders the WHERE clause
    ([buildCondition] yields [""] for an empty string query); the
    predicates that take effect are the others. *)
Definition effective (c : Chain) : Chain :=
  filter (fun cl => match cl with WhereQ "" [] => false | _ => true end) c.

(** Messages written by [logger.Warnf]. *)
Inductive Log :=
| WarnSearchWordNotStrings (v : ReqValue).

(** A clause without bound arguments: a raw [Where(condition)] or an
    [Order]; the [IN (?)] predicates are the clauses with an argument. *)
Definition unbound (cl : Clause) : Prop :=
  match cl with
  | WhereQ _ [] => True
  | WhereQ _ (_ :: _) => False
  | OrderQ _ => True
  end.

Section Builder.

(** Process-wide table metadata of [pkg/constants]. *)
Variable IndexedColumns : string -> option (list string).
Variable SearchColumns : string -> list string.
Variable SearchWordColumnTable : list string.
Variable ColumnGroupPath : string.

Definition likePattern (v : string) : string := "%" ++ SimplifyString v ++ "%".

Definition searchCondition (v column : string) : string :=
  if HasSuffix column "_id" then column ++ " = '" ++ v ++ "'"
  else column ++ " LIKE '" ++ likePattern v ++ "'".

Definition getSearchFilter (tableName : string) (value : option ReqValue)
    (exclude : list string) (c : Chain) : Chain * list Log :=
  let '(andConditions, logs) :=
    match value with
    | Some (VStrings vs) =>
        let orConditions :=
          flat_map (fun v =>
            flat_map (fun column =>
              if Contains exclude column then []
              else [searchCondition v column]) (SearchColumns tableName)) vs in
        ([Join orConditions " OR "], [])
    | Some v => ([], [WarnSearchWordNotStrings v])
    | None => ([], [])
    end in
  let condition := Join andConditions " AND " in
  ((c ++ [WhereQ condition []])%list, logs).

(** One iteration of the loop over [structs.Fields(req)]. *)
Definition filterField (tableName : string) (exclude : list string)
    (st : Chain * list Log) (field : Field) : Chain * list Log :=
  let '(c, logs) := st in
  let column := getFieldName field in
  let param := field_value field in
  let c1 :=
    match IndexedColumns tableName with
    | Some indexedColumns =>
        if Contains indexedColumns column then
          match getReqValue param with
          | Some value => (c ++ [WhereQ (column ++ " in (?)") [value]])%list
          | None => c
          end
        else c
    | None => c
    end in
  if String.eqb column SearchWordColumnName && Contains SearchWordColumnTable tableName
  then let '(c2, l2) := getSearchFilter tableName (getReqValue param) exclude c1 in
       (c2, (logs ++ l2)%list)
  else (c1, logs).

Definition buildFilterConditions (fields : list Field) (tableName : string)
    (exclude : list string) (st : Chain * list Log) : Chain * list Log :=
  fold_left (filterField tableName exclude) fields st.

Definition groupPathCondition (v : string) : string :=
  ColumnGroupPath ++ " LIKE '" ++ likePattern v ++ "'".

Definition BuildRootGroupIdConditions (rootGroupIds : list string) (c : Chain) : Chain :=
  if (0 <? List.length rootGroupIds)%nat then
    let conditions := map groupPathCondition rootGroupIds in
    let condition := Join conditions " OR " in
    (c ++ [WhereQ condition []])%list
  else c.

(** The search clause as the spec describes it: one OR-group per term over
    the non-excluded searchable columns, the groups joined with AND. *)
Definition searchClause_spec (tableName : string) (vs exclude : list string) : string :=
  Join (map (fun v =>
          Join (flat_map (fun column =>
                  if Contains exclude column then []
                  else [searchCondition v column]) (SearchColumns tableName)) " OR ")
        vs) " AND ".

End Builder.

(** The interfaces a request implements: [req_sort_key = Some s] when it has
    [GetSortKey() string] returning [s], [req_reverse = Some b] when it has
    [GetReverse() bool] returning [b]. *)
Record Req := { req_sort_key : option string; req_reverse : option bool }.

(** [req.(RequestWithSortKey)] *)
Definition asRequestWithSortKey (r : Req) : option string := req_sort_key r.

(** [req.(RequestWithReverse)]: [RequestWithReverse] embeds
    [RequestWithSortKey], so both methods are needed. *)
Definition asRequestWithReverse (r : Req) : option bool :=
  match req_sort_key r, req_reverse r with
  | Some _, Some b => Some b
  | _, _ => None
  end.

Definition AddQueryOrderDir (req : Req) (defaultColumn : string) (c : Chain) : Chain :=
  let order :=
    match asRequestWithReverse req with
    | Some true => "ASC"
    | _ => "DESC"
    end in
  let defaultColumn :=
    match asRequestWithSortKey req with
    | Some s => if String.eqb s "" then defaultColumn else s
    | None => defaultColumn
    end in
  (c ++ [OrderQ (defaultColumn ++ " " ++ order)])%list.

End Filter.

(* ------------------------------------------------------------------ *)
(** ** Example table metadata

    A small instance of the [pkg/constants] tables, used to evaluate the
    builder on concrete requests. *)

Module Sample.

Definition IndexedColumns (tableName : string) : option (list string) :=
  if String.eqb tableName "user" then Some ["user_id"; "status"] else None.

Definition SearchColumns (tableName : string) : list string :=
  if String.eqb tableName "user" then ["name"] else [].

Definition SearchWordColumnTable : list string := ["user"].

Definition ColumnGroupPath : string := "group_path".

(** A request field [UserId string `json:"user_id,omitempty"`] *)
Definition userIdField (v : Filter.Param) : Filter.Field :=
  {| Filter.field_tags := [("json", "user_id,omitempty")]; Filter.field_value := v |}.

(** A request field [SearchWord *wrappers.Int32Value `json:"search_word"`] *)
Definition searchWordField (v : Filter.Param) : Filter.Field :=
  {| Filter.field_tags := [("json", "search_word")]; Filter.field_value := v |}.

(** A field without any struct tag. *)
Definition untaggedField : Filter.Field :=
  {| Filter.field_tags := []; Filter.field_value := Filter.PString "x" |}.

End Sample.

(* ------------------------------------------------------------------ *)
(** ** [ComparePassword] *)

Module Password.

Record ComparePasswordRequest := { cpr_UserId : string; cpr_Password : string }.
Record ComparePasswordResponse := { Ok : bool }.
Record User := { UserId : string; Password : string }.

Section Compare.

(** The error type of the database and of bcrypt. *)
Variable error : Type.
(** [Database.Table(TableUser).Take(&User{UserId: id})]: the stored user or
    the lookup error. *)
Variable TakeUser : string -> User + error.
(** [bcrypt.CompareHashAndPassword(hash, password)]: [None] is a nil error. *)
Variable CompareHashAndPassword : string -> string -> option error.

(** The result pair [( *ComparePasswordResponse, error)]; [None] is nil. *)
Definition ComparePassword (req : ComparePasswordRequest)
    : option ComparePasswordResponse * option error :=
  match TakeUser (cpr_UserId req) with
  | inr err => (None, Some err)
  | inl user =>
      match CompareHashAndPassword (Password user) (cpr_Password req) with
      | Some _ => (Some {| Ok := false |}, None)
      | None => (Some {| Ok := true |}, None)
      end
  end.

End Compare.

End Password.

(* ------------------------------------------------------------------ *)
(** ** [ModifyPassword] over the user table *)

Module PasswordStore.

(** gRPC status errors ([status.Errorf(code, msg)]) and database errors. *)
Inductive Status (DbErr : Type) :=
| InvalidArgument (msg : string)
| DbError (e : DbErr).
Arguments InvalidArgument {DbErr} msg.
Arguments DbError {DbErr} e.

(** A row of the user table: the columns this code reads or writes. *)
Record UserRow := { row_user_id : string; row_password : string; row_update_time : Z }.

Record ModifyPasswordRequest := { mpr_UserId : string; mpr_Password : string }.
Record ModifyPasswordResponse := { mpr_resp_UserId : string }.

Section Modify.

Variable DbErr : Type.
(** [models.GetBcryptPassword] (the bcrypt hash stored for a password). *)
Variable GetBcryptPassword : string -> string.

(** [Database.Table(TableUser).Take(&User{UserId: id})]: the first row with
    that primary key, or the not-found error. *)
Definition TakeUser (recordNotFound : DbErr) (rows : list UserRow) (id : string)
    : Password.User + DbErr :=
  match find (fun r => String.eqb (row_user_id r) id) rows with
  | Some r => inl {| Password.UserId := row_user_id r; Password.Password := row_password r |}
  | None => inr recordNotFound
  end.

(** [Where(user_id = ?, id).Updates({password, update_time})]: every row with
    that user id gets the new hash and time; no matching row is no error. *)
Definition updatePassword (rows : list UserRow) (id hash : string) (now : Z) : list UserRow :=
  map (fun r => if String.eqb (row_user_id r) id
                then {| row_user_id := row_user_id r; row_password := hash;
                        row_update_time := now |}
                else r) rows.

(** [updateErr] is the error the UPDATE statement returns, if any; [now] is
    [time.Now()]. *)
Definition ModifyPassword (updateErr : option DbErr) (now : Z) (rows : list UserRow)
    (req : ModifyPasswordRequest)
    : (option ModifyPasswordResponse * option (Status DbErr)) * list UserRow :=
  if String.eqb (mpr_Password req) "" then
    ((None, Some (InvalidArgument "empty password")), rows)
  else
    match updateErr with
    | Some err => ((None, Some (DbError err)), rows)
    | None =>
        ((Some {| mpr_resp_UserId := mpr_UserId req |}, None),
         updatePassword rows (mpr_UserId req) (GetBcryptPassword (mpr_Password req)) now)
    end.

End Modify.

End PasswordStore.

(* ------------------------------------------------------------------ *)
(** ** User/group bindings ([user_group_binding_control.go]) *)

Module Binding.

(** A row of [user_group_binding]: the columns this code reads or writes. *)
Record UserGroupBinding := { ugb_user_id : string; ugb_group_id : string }.

(** [models.NewUserGroupBinding(userId, groupId)] *)
Definition NewUserGroupBinding (userId groupId : string) : UserGroupBinding :=
  {| ugb_user_id := userId; ugb_group_id := groupId |}.

Inductive Status (DbErr : Type) :=
| InvalidArgument (msg : string)
| PermissionDenied (msg : string)
| DbError (e : DbErr).
Arguments InvalidArgument {DbErr} msg.
Arguments PermissionDenied {DbErr} msg.
Arguments DbError {DbErr} e.

Record GroupRequest := { req_UserId : list string; req_GroupId : list string }.
Record GroupResponse := { resp_GroupId : list string; resp_UserId : list string }.

Section Store.

Variable DbErr : Type.

(** What the database answers to each statement of these functions:
    [None] is success. *)
Record Env := {
  find_err : option DbErr;                      (* Find / Rows *)
  create_err : UserGroupBinding -> option DbErr; (* tx.Create *)
  commit_err : option DbErr;                    (* tx.Commit *)
  delete_err : option DbErr                     (* Delete *)
}.

Variable env : Env.

Definition Table := list UserGroupBinding.

(** [group_id in (?) AND user_id in (?)]; an empty list matches no row. *)
Definition inGroupsUsers (groupIds userIds : list string) (b : UserGroupBinding) : bool :=
  Contains groupIds (ugb_group_id b) && Contains userIds (ugb_user_id b).

Definition GetUserGroupBindings (db : Table) (userIds groupIds : list string)
    : list UserGroupBinding + DbErr :=
  match find_err env with
  | Some err => inr err
  | None => inl (filter (inGroupsUsers groupIds userIds) db)
  end.

(** The rows [JoinGroup] creates, in the order of its two loops. *)
Definition joinRows (userIds groupIds : list string) : list UserGroupBinding :=
  flat_map (fun groupId => map (fun userId => NewUserGroupBinding userId groupId) userIds)
    groupIds.

(** The creates of the transaction: the staged rows, or the first error
    (after which the transaction is rolled back). *)
Fixpoint txCreate (staged : list UserGroupBinding) (rows : list UserGroupBinding)
    : list UserGroupBinding + DbErr :=
  match rows with
  | [] => inl staged
  | b :: rest =>
      match create_err env b with
      | Some err => inr err
      | None => txCreate (staged ++ [b])%list rest
      end
  end.

Definition JoinGroup (db : Table) (req : GroupRequest)
    : (option GroupResponse * option (Status DbErr)) * Table :=
  if (List.length (req_UserId req) =? 0)%nat || (List.length (req_GroupId req) =? 0)%nat then
    ((None, Some (InvalidArgument "empty user id or group id")), db)
  else
    match GetUserGroupBindings db (req_UserId req) (req_GroupId req) with
    | inr err => ((None, Some (DbError err)), db)
    | inl userGroupBindings =>
        if negb (List.length userGroupBindings =? 0)%nat then
          ((None, Some (PermissionDenied "user already in group")), db)
        else
          match txCreate [] (joinRows (req_UserId req) (req_GroupId req)) with
          | inr err => ((None, Some (DbError err)), db)
          | inl staged =>
              match commit_err env with
              | Some err => ((None, Some (DbError err)), db)
              | None =>
                  ((Some {| resp_GroupId := req_GroupId req; resp_UserId := req_UserId req |},
                    None), (db ++ staged)%list)
              end
          end
  end.

Definition LeaveGroup (db : Table) (req : GroupRequest)
    : (option GroupResponse * option (Status DbErr)) * Table :=
  if (List.length (req_UserId req) =? 0)%nat || (List.length (req_GroupId req) =? 0)%nat then
    ((None, Some (InvalidArgument "empty user id or group id")), db)
  else
    match GetUserGroupBindings db (req_UserId req) (req_GroupId req) with
    | inr err => ((None, Some (DbError err)), db)
    | inl userGroupBindings =>
        if negb (List.length userGroupBindings
                 =? List.length (req_UserId req) * List.length (req_GroupId req))%nat then
          ((None, Some (PermissionDenied "user not in group")), db)
        else
          match delete_err env with
          | Some err => ((None, Some (DbError err)), db)
          | None =>
              ((Some {| resp_GroupId := req_GroupId req; resp_UserId := req_UserId req |},
                None),
               filter (fun b => negb (inGroupsUsers (req_GroupId req) (req_UserId req) b)) db)
          end
  end.


End Store.

End Binding.

(* ------------------------------------------------------------------ *)
(** ** Example database answers *)

Module SampleStore.

(** A database on which every statement succeeds. *)
Definition okEnv : Binding.Env string :=
  {| Binding.find_err := None; Binding.create_err := fun _ => None;
     Binding.commit_err := None; Binding.delete_err := None |}.

Definition bind (u g : string) : Binding.UserGroupBinding := Binding.NewUserGroupBinding u g.

(** A stand-in for bcrypt: the "hash" of [p] is ["h:" ++ p]. *)
Definition hashOf (p : string) : string := "h:" ++ p.

Definition userRows : list PasswordStore.UserRow :=
  [{| PasswordStore.row_user_id := "u1"; PasswordStore.row_password := hashOf "old";
      PasswordStore.row_update_time := 0 |}].

End SampleStore.

(* ================================================================== *)
(** * Properties *)

(** ** Helper lemmas *)

Lemma Contains_In (l : list string) (s : string) :
  Contains l s = true <-> In s l.
Proof.
  induction l as [|x xs IH]; simpl.
  - split; [discriminate | tauto].
  - rewrite orb_true_iff, String.eqb_eq, IH.
    split; intros [H|H]; auto.
Qed.

Lemma SplitComma_not_nil (s : string) : SplitComma s <> [].
Proof.
  induction s as [|c s IH]; simpl; [discriminate|].
  destruct (Ascii.eqb c ","); [discriminate|].
  destruct (SplitComma s); discriminate.
Qed.

Lemma GetDisplayColumns_fold (w : Columns.Slice) (dcs : list string) (acc : Columns.Slice) :
  Columns.elems
    (fold_left
       (fun newDisplayColumns column =>
          if Contains (Columns.elems w) column
          then Columns.append newDisplayColumns column
          else newDisplayColumns) dcs acc)
  = (Columns.elems acc ++ filter (Contains (Columns.elems w)) dcs)%list.
Proof.
  revert acc; induction dcs as [|d ds IH]; intros acc; simpl.
  - now rewrite app_nil_r.
  - destruct (Contains (Columns.elems w) d); rewrite IH; simpl.
    + now rewrite <- app_assoc.
    + reflexivity.
Qed.

(** ** Pagination *)

(** C7: [GetLimitFromRequest] returns the default limit 20 for limit 0, the
    maximum 200 for a limit above 200 (200 for limit 500), and the limit
    itself otherwise (50 for limit 50). *)
Theorem GetLimitFromRequest_clamps (req : Pagination.Page) :
  (Pagination.req_limit req = 0%N -> Pagination.GetLimitFromRequest req = 20%N) /\
  ((200 < Pagination.req_limit req)%N -> Pagination.GetLimitFromRequest req = 200%N) /\
  (Pagination.req_limit req <> 0%N -> (Pagination.req_limit req <= 200)%N ->
   Pagination.GetLimitFromRequest req = Pagination.req_limit req) /\
  Pagination.GetLimitFromRequest {| Pagination.req_offset := 0; Pagination.req_limit := 500 |} = 200%N /\
  Pagination.GetLimitFromRequest {| Pagination.req_offset := 0; Pagination.req_limit := 50 |} = 50%N.
Proof.
  unfold Pagination.GetLimitFromRequest, Pagination.GetLimit,
    Pagination.DefaultLimit, Pagination.DefaultSelectLimit.
  destruct req as [o n]; simpl.
  repeat split; intros.
  - subst; reflexivity.
  - destruct (N.eqb_spec n 0); [lia|].
    destruct (N.ltb_spec n 0); [lia|].
    destruct (N.ltb_spec 200 n); lia.
  - destruct (N.eqb_spec n 0); [lia|].
    destruct (N.ltb_spec n 0); [lia|].
    destruct (N.ltb_spec 200 n); lia.
Qed.

(** ** Display columns *)

(** C8: [GetDisplayColumns] returns [wholeColumns] for a nil
    [displayColumns], an empty result for an empty one, and otherwise the
    columns of [displayColumns] that occur in [wholeColumns], in order;
    e.g. [GetDisplayColumns(["a","z"], ["a","b"]) = ["a"]]. *)
Theorem GetDisplayColumns_projects (wholeColumns : Columns.Slice) :
  Columns.GetDisplayColumns None wholeColumns = wholeColumns /\
  Columns.elems (Columns.GetDisplayColumns (Some []) wholeColumns) = [] /\
  (forall d ds,
     Columns.elems (Columns.GetDisplayColumns (Some (d :: ds)) wholeColumns)
     = filter (fun column => Contains (Columns.elems wholeColumns) column) (d :: ds)) /\
  Columns.GetDisplayColumns (Some ["a"; "z"]) (Some ["a"; "b"]) = Some ["a"].
Proof.
  repeat split.
  intros d ds. unfold Columns.GetDisplayColumns.
  rewrite (GetDisplayColumns_fold wholeColumns (d :: ds) None). reflexivity.
Qed.

(** ** Filter-value normalization *)

Lemma filter_nonEmpty_all_empty (l : list string) :
  Forall (fun v => v = "") l -> filter Filter.nonEmpty l = [].
Proof.
  induction 1 as [|x xs Hx _ IH]; simpl; [reflexivity|].
  subst x; exact IH.
Qed.

(** C3: [getReqValue] maps the empty string, a nil wrapped scalar and a
    string list of empty strings to absent ([None]); a non-empty string, a
    wrapped string or a wrapped int32 to a singleton list; and a string list
    with a non-empty element to the list of its non-empty elements. *)
Theorem getReqValue_normalizes :
  Filter.getReqValue (Filter.PString "") = None /\
  Filter.getReqValue (Filter.PStringValue None) = None /\
  Filter.getReqValue (Filter.PInt32Value None) = None /\
  (forall l, Forall (fun v => v = "") l -> Filter.getReqValue (Filter.PStringList l) = None) /\
  (forall s, s <> "" -> Filter.getReqValue (Filter.PString s) = Some (Filter.VStrings [s])) /\
  (forall s, Filter.getReqValue (Filter.PStringValue (Some s)) = Some (Filter.VStrings [s])) /\
  (forall n, Filter.getReqValue (Filter.PInt32Value (Some n)) = Some (Filter.VInt32s [n])) /\
  (forall l, filter Filter.nonEmpty l <> [] ->
   Filter.getReqValue (Filter.PStringList l) = Some (Filter.VStrings (filter Filter.nonEmpty l))).
Proof.
  repeat split.
  - intros l Hl; simpl; now rewrite filter_nonEmpty_all_empty.
  - intros s Hs; simpl.
    destruct (String.eqb_spec s ""); [contradiction | reflexivity].
  - intros l Hl; simpl.
    destruct (filter Filter.nonEmpty l); [contradiction | reflexivity].
Qed.

(** ** Column name of a field *)

(** C6 (code_bug): a field without a [json] tag gets the column name [""],
    not the sentinel ["-"]: [strings.Split("", ",")] is [[""]], so the
    [len(t) == 0] guard of [getFieldName] never fires. *)
Theorem getFieldName_untagged_is_empty (f : Filter.Field)
    (Hnotag : find (fun kv => String.eqb (fst kv) Filter.TagName) (Filter.field_tags f) = None) :
  Filter.getFieldName f = "" /\ Filter.getFieldName f <> "-".
Proof.
  unfold Filter.getFieldName, Filter.Tag. rewrite Hnotag.
  split; [reflexivity | discriminate].
Qed.

(** ** [ComparePassword] *)

(** C10: when the user lookup succeeds, [ComparePassword] returns
    [Ok = false] with a nil error on a bcrypt mismatch and [Ok = true] with
    a nil error on a match; a nil response with an error only comes from a
    failed lookup. *)
Theorem ComparePassword_mismatch_not_error
    (error : Type) (TakeUser : string -> Password.User + error)
    (CompareHashAndPassword : string -> string -> option error)
    (req : Password.ComparePasswordRequest) :
  (forall user,
     TakeUser (Password.cpr_UserId req) = inl user ->
     (forall e, CompareHashAndPassword (Password.Password user) (Password.cpr_Password req) = Some e ->
      Password.ComparePassword error TakeUser CompareHashAndPassword req
      = (Some {| Password.Ok := false |}, None)) /\
     (CompareHashAndPassword (Password.Password user) (Password.cpr_Password req) = None ->
      Password.ComparePassword error TakeUser CompareHashAndPassword req
      = (Some {| Password.Ok := true |}, None))) /\
  (forall e,
     Password.ComparePassword error TakeUser CompareHashAndPassword req = (None, Some e) ->
     TakeUser (Password.cpr_UserId req) = inr e).
Proof.
  unfold Password.ComparePassword.
  split.
  - intros user Hu; rewrite Hu; split.
    + intros e He; now rewrite He.
    + intros He; now rewrite He.
  - intros e.
    destruct (TakeUser (Password.cpr_UserId req)) as [user|err].
    + destruct (CompareHashAndPassword _ _); discriminate.
    + intros H; inversion H; reflexivity.
Qed.

(** ** The neutralized [LIKE] pattern *)

Lemma string_append_assoc (a b c : string) : (a ++ b) ++ c = a ++ (b ++ c).
Proof. induction a as [|x a IH]; simpl; [reflexivity | now rewrite IH]. Qed.

Lemma string_append_nil_r (a : string) : a ++ "" = a.
Proof. induction a as [|x a IH]; simpl; [reflexivity | now rewrite IH]. Qed.

Lemma like_percent_nil (p : string) :
  Like.like (String "%" p) "" = Like.like p "" || false.
Proof. reflexivity. Qed.

Lemma like_percent_cons (p : string) (d : ascii) (s : string) :
  Like.like (String "%" p) (String d s)
  = Like.like p (String d s) || Like.like (String "%" p) s.
Proof. reflexivity. Qed.

(** [%] followed by [p] matches [s] iff [p] matches some suffix of [s]. *)
Lemma like_percent (p s : string) :
  Like.like (String "%" p) s = true <->
  exists a s', s = a ++ s' /\ Like.like p s' = true.
Proof.
  induction s as [|d s IH].
  - rewrite like_percent_nil, orb_false_r. split.
    + intros H; exists "", ""; auto.
    + intros (a & s' & Hs & Hp). destruct a; [|discriminate].
      simpl in Hs; now subst s'.
  - rewrite like_percent_cons, orb_true_iff, IH. split.
    + intros [H | (a & s' & Hs & Hp)].
      * exists "", (String d s); auto.
      * exists (String d a), s'; subst s; auto.
    + intros (a & s' & Hs & Hp). destruct a as [|c a].
      * left; simpl in Hs; now subst s'.
      * right; simpl in Hs; inversion Hs; subst. exists a, s'; auto.
Qed.

Lemma like_percent_all (s : string) : Like.like (String "%" "") s = true.
Proof.
  apply like_percent. exists s, ""; split; [|reflexivity].
  now rewrite string_append_nil_r.
Qed.

(** A neutralized term matches exactly itself, character by character. *)
Lemma like_simplified_prefix (v p s : string) :
  Like.like (SimplifyString v ++ p) s = true <->
  exists s', s = v ++ s' /\ Like.like p s' = true.
Proof.
  revert s; induction v as [|c v IH]; intros s; simpl.
  - split; [intros H; exists s; auto | intros (s' & -> & H); exact H].
  - destruct (is_like_meta c) eqn:Hm.
    + (* escaped: [\\c] *)
      destruct s as [|d s].
      * split; [discriminate | intros (s' & Hs & _); discriminate].
      * change (Ascii.eqb c d && Like.like (SimplifyString v ++ p) s = true <->
                (exists s', String d s = String c (v ++ s') /\ Like.like p s' = true)).
        rewrite andb_true_iff, Ascii.eqb_eq, IH. split.
        -- intros (-> & s' & -> & H). exists s'; auto.
        -- intros (s' & Hs & H). inversion Hs; subst. split; [reflexivity|].
           exists s'; auto.
    + unfold is_like_meta in Hm.
      apply orb_false_iff in Hm as [Hm Hu].
      apply orb_false_iff in Hm as [Hb Hp].
      destruct s as [|d s].
      * cbn [String.append Like.like]; rewrite Hp, Hu, Hb.
        split; [discriminate | intros (s' & Hs & _); discriminate].
      * cbn [String.append Like.like]; rewrite Hp, Hu, Hb.
        rewrite andb_true_iff, Ascii.eqb_eq, IH. split.
        -- intros (-> & s' & -> & H). exists s'; auto.
        -- intros (s' & Hs & H). inversion Hs; subst. split; [reflexivity|].
           exists s'; auto.
Qed.

(** The pattern ["%" ++ SimplifyString v ++ "%"] is a plain substring test:
    metacharacters of [v] match only themselves. *)
Lemma likePattern_substring (v s : string) :
  Like.like (Filter.likePattern v) s = true <-> exists a b, s = a ++ v ++ b.
Proof.
  unfold Filter.likePattern. cbn [String.append]. rewrite like_percent. split.
  - intros (a & s' & -> & H).
    apply like_simplified_prefix in H as (b & -> & _). exists a, b; reflexivity.
  - intros (a & b & ->). exists a, (v ++ b). split; [reflexivity|].
    apply like_simplified_prefix. exists b; split; [reflexivity|].
    apply like_percent_all.
Qed.

(** ** The filter builder *)

Section BuilderProps.

Variable IndexedColumns : string -> option (list string).
Variable SearchColumns : string -> list string.
Variable SearchWordColumnTable : list string.
Variable ColumnGroupPath : string.

Local Abbreviation filterField :=
  (Filter.filterField IndexedColumns SearchColumns SearchWordColumnTable).
Local Abbreviation buildFilterConditions :=
  (Filter.buildFilterConditions IndexedColumns SearchColumns SearchWordColumnTable).
Local Abbreviation getSearchFilter := (Filter.getSearchFilter SearchColumns).

Lemma getSearchFilter_appends_unbound (tableName : string) (value : option Filter.ReqValue)
    (exclude : list string) (c : Filter.Chain) :
  exists cond, fst (getSearchFilter tableName value exclude c) = (c ++ [Filter.WhereQ cond []])%list.
Proof.
  unfold Filter.getSearchFilter.
  destruct value as [[vs|l]|]; simpl; eexists; reflexivity.
Qed.

Lemma filterField_appends (tableName : string) (exclude : list string)
    (st : Filter.Chain * list Filter.Log) (f : Filter.Field) :
  exists added, fst (filterField tableName exclude st f) = (fst st ++ added)%list.
Proof.
  destruct st as [c logs]. unfold Filter.filterField.
  set (c1 := match IndexedColumns tableName with
             | Some cols => if Contains cols (Filter.getFieldName f) then
                 match Filter.getReqValue (Filter.field_value f) with
                 | Some v => (c ++ [Filter.WhereQ (Filter.getFieldName f ++ " in (?)") [v]])%list
                 | None => c end
               else c
             | None => c end).
  assert (Hc1 : exists a, c1 = (c ++ a)%list).
  { subst c1. destruct (IndexedColumns tableName); [|exists []; now rewrite app_nil_r].
    destruct (Contains _ _); [|exists []; now rewrite app_nil_r].
    destruct (Filter.getReqValue _); [eexists; reflexivity|exists []; now rewrite app_nil_r]. }
  destruct Hc1 as [a Ha].
  destruct (_ && _).
  - destruct (getSearchFilter_appends_unbound tableName
                (Filter.getReqValue (Filter.field_value f)) exclude c1) as [cond Hcond].
    destruct (getSearchFilter tableName _ exclude c1) as [c2 l2] eqn:E.
    simpl in *. exists (a ++ [Filter.WhereQ cond []])%list.
    rewrite Hcond, Ha, app_assoc. reflexivity.
  - exists a. exact Ha.
Qed.

Lemma buildFilterConditions_appends (fields : list Filter.Field) (tableName : string)
    (exclude : list string) (st : Filter.Chain * list Filter.Log) :
  exists tail, fst (buildFilterConditions fields tableName exclude st) = (fst st ++ tail)%list.
Proof.
  unfold Filter.buildFilterConditions.
  revert st; induction fields as [|f fs IH]; intros st; cbn [fold_left].
  - exists []; now rewrite app_nil_r.
  - destruct (filterField_appends tableName exclude st f) as [a Ha].
    destruct (IH (filterField tableName exclude st f)) as [t Ht].
    exists (a ++ t)%list.
    rewrite Ht, Ha, app_assoc. reflexivity.
Qed.

Lemma filterField_indexed (tableName : string) (exclude : list string)
    (c : Filter.Chain) (logs : list Filter.Log) (f : Filter.Field) (cols : list string)
    (Hidx : IndexedColumns tableName = Some cols)
    (Hcol : Contains cols (Filter.getFieldName f) = true) :
  exists rest, Forall Filter.unbound rest /\
    fst (filterField tableName exclude (c, logs) f)
    = (c ++ match Filter.getReqValue (Filter.field_value f) with
            | Some v => [Filter.WhereQ (Filter.getFieldName f ++ " in (?)") [v]]
            | None => []
            end ++ rest)%list.
Proof.
  unfold Filter.filterField. rewrite Hidx, Hcol.
  destruct (Filter.getReqValue (Filter.field_value f)) as [v|] eqn:Hv;
  destruct (_ && _).
  - destruct (getSearchFilter_appends_unbound tableName (Some v) exclude
                (c ++ [Filter.WhereQ (Filter.getFieldName f ++ " in (?)") [v]])%list)
      as [cond Hcond].
    destruct (getSearchFilter tableName (Some v) exclude _) as [c2 l2].
    simpl in *. exists [Filter.WhereQ cond []].
    split; [repeat constructor|]. rewrite Hcond, <- app_assoc. reflexivity.
  - exists []. split; [constructor|]. now rewrite app_nil_r.
  - destruct (getSearchFilter_appends_unbound tableName None exclude c) as [cond Hcond].
    destruct (getSearchFilter tableName None exclude c) as [c2 l2].
    simpl in *. exists [Filter.WhereQ cond []].
    split; [repeat constructor|]. exact Hcond.
  - exists []. split; [constructor|]. now rewrite !app_nil_r.
Qed.

(** C1: for a table with an indexed-column set and a request field whose
    column is in that set, the field's step of [buildFilterConditions]
    attaches the predicate [column in (?)] bound to the normalized value
    when that value is present, and no bound predicate at all when it is
    absent; everything else the step attaches is an unbound search clause,
    and later fields only append to the chain. *)
Theorem buildFilterConditions_indexed_in (tableName : string) (exclude : list string)
    (cols : list string) (pre post : list Filter.Field) (f : Filter.Field)
    (st : Filter.Chain * list Filter.Log)
    (Hidx : IndexedColumns tableName = Some cols)
    (Hcol : In (Filter.getFieldName f) cols) :
  let st1 := buildFilterConditions pre tableName exclude st in
  let inPred := match Filter.getReqValue (Filter.field_value f) with
                | Some v => [Filter.WhereQ (Filter.getFieldName f ++ " in (?)") [v]]
                | None => []
                end in
  exists rest tail,
    Forall Filter.unbound rest /\
    fst (filterField tableName exclude st1 f) = (fst st1 ++ inPred ++ rest)%list /\
    fst (buildFilterConditions (pre ++ f :: post) tableName exclude st)
    = (fst st1 ++ inPred ++ rest ++ tail)%list.
Proof.
  intros st1 inPred.
  destruct st1 as [c logs] eqn:Hst1.
  apply Contains_In in Hcol.
  destruct (filterField_indexed tableName exclude c logs f cols Hidx Hcol)
    as (rest & Hrest & Hf).
  destruct (buildFilterConditions_appends post tableName exclude
              (filterField tableName exclude (c, logs) f)) as [tail Ht].
  exists rest, tail. split; [exact Hrest|]. split; [exact Hf|].
  unfold Filter.buildFilterConditions at 1. rewrite fold_left_app. cbn [fold_left].
  change (fold_left (filterField tableName exclude) pre st) with st1.
  rewrite Hst1. unfold Filter.buildFilterConditions in Ht.
  rewrite Ht, Hf. simpl. now rewrite !app_assoc.
Qed.

(** C4: [buildFilterConditions] has no failure outcome. A search-word value
    that is present but not a [[]string] gives the same chain as an absent
    one (an empty [Where("")], which gorm drops) and only adds a warning; a
    field whose value normalizes to absent leaves the effective predicates
    and the log unchanged; a search-word field holding a non-string value
    on a column that is not indexed only logs the warning. *)
Theorem buildFilterConditions_skips_invalid (tableName : string) (exclude : list string) :
  (forall value c,
     (forall vs, value <> Some (Filter.VStrings vs)) ->
     getSearchFilter tableName value exclude c
     = ((c ++ [Filter.WhereQ "" []])%list,
        match value with Some v => [Filter.WarnSearchWordNotStrings v] | None => [] end) /\
     fst (getSearchFilter tableName value exclude c)
     = fst (getSearchFilter tableName None exclude c) /\
     Filter.effective (c ++ [Filter.WhereQ "" []])%list = Filter.effective c) /\
  (forall st f,
     Filter.getReqValue (Filter.field_value f) = None ->
     Filter.effective (fst (filterField tableName exclude st f)) = Filter.effective (fst st) /\
     snd (filterField tableName exclude st f) = snd st) /\
  (forall st f l,
     Filter.getReqValue (Filter.field_value f) = Some (Filter.VInt32s l) ->
     Filter.getFieldName f = Filter.SearchWordColumnName ->
     ~ (exists cols, IndexedColumns tableName = Some cols /\ In (Filter.getFieldName f) cols) ->
     Filter.effective (fst (filterField tableName exclude st f)) = Filter.effective (fst st) /\
     snd (filterField tableName exclude st f)
     = (snd st ++ if Contains SearchWordColumnTable tableName
                  then [Filter.WarnSearchWordNotStrings (Filter.VInt32s l)] else [])%list).
Proof.
  assert (Heff : forall c, Filter.effective (c ++ [Filter.WhereQ "" []])%list = Filter.effective c).
  { intros c. unfold Filter.effective. rewrite filter_app. simpl. apply app_nil_r. }
  split; [|split].
  - intros value c Hv.
    destruct value as [[vs|l]|]; [exfalso; exact (Hv vs eq_refl)| |];
      repeat split; apply Heff.
  - intros [c logs] f Hnone. unfold Filter.filterField. rewrite Hnone.
    destruct (IndexedColumns tableName) as [cols|];
      [destruct (Contains cols (Filter.getFieldName f))|];
      destruct (_ && _); simpl;
      solve [split; [apply Heff | apply app_nil_r] | split; reflexivity].
  - intros [c logs] f l Hl Hsw Hnidx. unfold Filter.filterField. rewrite Hl.
    assert (Hc : match IndexedColumns tableName with
                 | Some cols => Contains cols (Filter.getFieldName f)
                 | None => false end = false).
    { destruct (IndexedColumns tableName) as [cols|] eqn:Hi; [|reflexivity].
      destruct (Contains cols (Filter.getFieldName f)) eqn:Hc; [|reflexivity].
      exfalso. apply Hnidx. exists cols. split; [reflexivity|].
      now apply Contains_In. }
    rewrite Hsw in *.
    destruct (IndexedColumns tableName) as [cols|];
      [rewrite Hc|]; cbn [String.eqb Ascii.eqb Bool.eqb andb Filter.SearchWordColumnName];
      destruct (Contains SearchWordColumnTable tableName); simpl;
      solve [split; [apply Heff | reflexivity] | split; [reflexivity | now rewrite app_nil_r]].
Qed.

(** C5: [BuildRootGroupIdConditions] leaves the chain unchanged for no ids,
    and otherwise adds one condition, the OR over the ids of [LIKE]
    predicates on the group-path column; each pattern is the neutralized id
    between [%] wildcards, so it matches exactly the values containing the
    id literally. *)
Theorem BuildRootGroupIdConditions_or_of_likes (rootGroupIds : list string) (c : Filter.Chain) :
  (rootGroupIds = [] ->
   Filter.BuildRootGroupIdConditions ColumnGroupPath rootGroupIds c = c) /\
  (rootGroupIds <> [] ->
   Filter.BuildRootGroupIdConditions ColumnGroupPath rootGroupIds c
   = (c ++ [Filter.WhereQ
              (Join (map (fun v => (ColumnGroupPath ++ " LIKE '" ++ Filter.likePattern v ++ "'")%string)
                       rootGroupIds) " OR ") []])%list) /\
  (forall v s, Like.like (Filter.likePattern v) s = true <-> exists a b, s = a ++ v ++ b).
Proof.
  split; [|split].
  - intros ->. reflexivity.
  - intros Hne. unfold Filter.BuildRootGroupIdConditions.
    destruct rootGroupIds as [|id ids]; [contradiction|]. reflexivity.
  - exact likePattern_substring.
Qed.

End BuilderProps.

(** ** The search clause across several terms *)

(** C2 (code_bug): with two search terms, [getSearchFilter] joins all the
    per-column conditions of all terms with OR into a single group
    ([orConditions] is shared by the loop over the terms and [andConditions]
    receives one element), whereas one OR-group per term joined with AND is
    what the spec describes and what the names [andConditions] /
    [" AND "] aim at. *)
Theorem getSearchFilter_two_terms_single_or :
  Filter.getSearchFilter Sample.SearchColumns "user"
    (Some (Filter.VStrings ["a"; "b"])) [] []
  = ([Filter.WhereQ "name LIKE '%a%' OR name LIKE '%b%'" []], []) /\
  Filter.searchClause_spec Sample.SearchColumns "user" ["a"; "b"] []
  = "name LIKE '%a%' AND name LIKE '%b%'" /\
  "name LIKE '%a%' OR name LIKE '%b%'" <> "name LIKE '%a%' AND name LIKE '%b%'".
Proof.
  split; [reflexivity|]. split; [reflexivity|]. discriminate.
Qed.

(** ** Ordering *)

(** C9 counterexample: a request with a [GetReverse() bool] returning true
    but no [GetSortKey() string] is not a [RequestWithReverse] (which embeds
    [RequestWithSortKey]), so the order stays DESC. *)
Lemma AddQueryOrderDir_reverse_without_sort_key :
  Filter.AddQueryOrderDir {| Filter.req_sort_key := None; Filter.req_reverse := Some true |}
    "create_time" [] = [Filter.OrderQ "create_time DESC"] /\
  Filter.AddQueryOrderDir {| Filter.req_sort_key := None; Filter.req_reverse := Some true |}
    "create_time" [] <> [Filter.OrderQ "create_time ASC"].
Proof. split; [reflexivity | discriminate]. Qed.

(** C9 (amended): [AddQueryOrderDir] appends [Order(S ++ " " ++ D)] where
    [S] is the request's sort key when it has a non-empty one and the
    default column otherwise, and [D] is ASC exactly when the request has
    both a [GetSortKey] and a [GetReverse] method (the [RequestWithReverse]
    interface) and [GetReverse] is true, DESC otherwise. *)
Theorem AddQueryOrderDir_order (req : Filter.Req) (defaultColumn : string) (c : Filter.Chain) :
  (exists col dir,
     Filter.AddQueryOrderDir req defaultColumn c = (c ++ [Filter.OrderQ (col ++ " " ++ dir)])%list /\
     (forall s, Filter.req_sort_key req = Some s -> s <> "" -> col = s) /\
     ((forall s, Filter.req_sort_key req = Some s -> s = "") -> col = defaultColumn) /\
     (dir = "ASC" <-> Filter.req_sort_key req <> None /\ Filter.req_reverse req = Some true) /\
     (dir = "ASC" \/ dir = "DESC")) /\
  Filter.AddQueryOrderDir {| Filter.req_sort_key := Some ""; Filter.req_reverse := Some false |}
    "create_time" [] = [Filter.OrderQ "create_time DESC"] /\
  Filter.AddQueryOrderDir {| Filter.req_sort_key := Some "name"; Filter.req_reverse := Some true |}
    "create_time" [] = [Filter.OrderQ "name ASC"].
Proof.
  split; [|split; reflexivity].
  destruct req as [sk rv].
  exists (match sk with Some s => if String.eqb s "" then defaultColumn else s
                   | None => defaultColumn end),
         (match sk, rv with Some _, Some true => "ASC" | _, _ => "DESC" end).
  split.
  { unfold Filter.AddQueryOrderDir, Filter.asRequestWithReverse, Filter.asRequestWithSortKey.
    simpl. destruct sk, rv as [[|]|]; reflexivity. }
  simpl. split; [|split; [|split]].
  - intros s Hs Hne. subst sk. destruct (String.eqb_spec s ""); congruence.
  - intros H. destruct sk as [s|]; [|reflexivity].
    rewrite (H s eq_refl). reflexivity.
  - destruct sk, rv as [[|]|]; split;
      solve [ intros H; discriminate H
            | intros [H1 H2]; first [discriminate H2 | congruence]
            | intros _; split; [discriminate | reflexivity]
            | reflexivity ].
  - destruct sk, rv as [[|]|]; auto.
Qed.

(* ================================================================== *)
(** * Instances of the properties on concrete inputs *)

Lemma getReqValue_normalizes_witness :
  Filter.getReqValue (Filter.PStringList [""; "a"; ""]) = Some (Filter.VStrings ["a"]) /\
  Filter.getReqValue (Filter.PStringList [""; ""]) = None /\
  Filter.getReqValue (Filter.PString "v") = Some (Filter.VStrings ["v"]).
Proof.
  destruct getReqValue_normalizes as (_ & _ & _ & H4 & H5 & _ & _ & H8).
  split; [apply (H8 [""; "a"; ""]); discriminate|].
  split; [apply (H4 [""; ""]); repeat constructor|].
  apply (H5 "v"); discriminate.
Defined.

Lemma getFieldName_untagged_is_empty_witness :
  Filter.getFieldName Sample.untaggedField = "" /\ Filter.getFieldName Sample.untaggedField <> "-".
Proof. apply (getFieldName_untagged_is_empty Sample.untaggedField); reflexivity. Defined.

Lemma GetLimitFromRequest_clamps_witness :
  Pagination.GetLimitFromRequest {| Pagination.req_offset := 0; Pagination.req_limit := 0 |} = 20%N /\
  Pagination.GetLimitFromRequest {| Pagination.req_offset := 0; Pagination.req_limit := 500 |} = 200%N /\
  Pagination.GetLimitFromRequest {| Pagination.req_offset := 0; Pagination.req_limit := 50 |} = 50%N.
Proof.
  split; [apply (proj1 (GetLimitFromRequest_clamps
                          {| Pagination.req_offset := 0; Pagination.req_limit := 0 |}));
          reflexivity|].
  split; [apply (proj1 (proj2 (GetLimitFromRequest_clamps
                                 {| Pagination.req_offset := 0; Pagination.req_limit := 500 |})));
          simpl; lia|].
  apply (proj1 (proj2 (proj2 (GetLimitFromRequest_clamps
                                {| Pagination.req_offset := 0; Pagination.req_limit := 50 |}))));
    simpl; lia.
Defined.

Lemma ComparePassword_mismatch_not_error_witness :
  Password.ComparePassword string
    (fun id => inl {| Password.UserId := id; Password.Password := "hash" |})
    (fun hash pw => if String.eqb pw "pw" then None else Some "mismatch")
    {| Password.cpr_UserId := "u1"; Password.cpr_Password := "bad" |}
  = (Some {| Password.Ok := false |}, None).
Proof.
  apply (proj1 (proj1 (ComparePassword_mismatch_not_error string
           (fun id => inl {| Password.UserId := id; Password.Password := "hash" |})
           (fun hash pw => if String.eqb pw "pw" then None else Some "mismatch")
           {| Password.cpr_UserId := "u1"; Password.cpr_Password := "bad" |})
           {| Password.UserId := "u1"; Password.Password := "hash" |} eq_refl) "mismatch").
  reflexivity.
Defined.

Lemma buildFilterConditions_indexed_in_witness :
  Sample.IndexedColumns "user" = Some ["user_id"; "status"] /\
  In (Filter.getFieldName (Sample.userIdField (Filter.PString "u1"))) ["user_id"; "status"] /\
  exists rest tail,
    Forall Filter.unbound rest /\
    fst (Filter.filterField Sample.IndexedColumns Sample.SearchColumns Sample.SearchWordColumnTable
           "user" [] ([], []) (Sample.userIdField (Filter.PString "u1")))
    = ([Filter.WhereQ "user_id in (?)" [Filter.VStrings ["u1"]]] ++ rest)%list /\
    fst (Filter.buildFilterConditions Sample.IndexedColumns Sample.SearchColumns
           Sample.SearchWordColumnTable [Sample.userIdField (Filter.PString "u1")] "user" [] ([], []))
    = ([Filter.WhereQ "user_id in (?)" [Filter.VStrings ["u1"]]] ++ rest ++ tail)%list.
Proof.
  split; [reflexivity|]. split; [simpl; auto|].
  exact (buildFilterConditions_indexed_in Sample.IndexedColumns Sample.SearchColumns
           Sample.SearchWordColumnTable "user" [] ["user_id"; "status"] [] []
           (Sample.userIdField (Filter.PString "u1")) ([], []) eq_refl (or_introl eq_refl)).
Defined.

Lemma buildFilterConditions_skips_invalid_witness :
  let f := Sample.searchWordField (Filter.PInt32Value (Some 5%Z)) in
  Filter.effective (fst (Filter.filterField Sample.IndexedColumns Sample.SearchColumns
                           Sample.SearchWordColumnTable "user" [] ([], []) f)) = [] /\
  snd (Filter.filterField Sample.IndexedColumns Sample.SearchColumns
         Sample.SearchWordColumnTable "user" [] ([], []) f)
  = [Filter.WarnSearchWordNotStrings (Filter.VInt32s [5%Z])].
Proof.
  intros f.
  destruct (buildFilterConditions_skips_invalid Sample.IndexedColumns Sample.SearchColumns
              Sample.SearchWordColumnTable "user" []) as (_ & _ & H3).
  apply (H3 ([], []) f [5%Z]).
  - reflexivity.
  - reflexivity.
  - intros (cols & Hcols & Hin). simpl in Hcols. inversion Hcols; subst cols.
    simpl in Hin. destruct Hin as [H|[H|H]]; [discriminate H | discriminate H | exact H].
Defined.

Lemma BuildRootGroupIdConditions_or_of_likes_witness :
  Filter.BuildRootGroupIdConditions Sample.ColumnGroupPath ["g1"; "g2"] []
  = [Filter.WhereQ "group_path LIKE '%g1%' OR group_path LIKE '%g2%'" []] /\
  Like.like (Filter.likePattern "5%") "x5%y" = true.
Proof.
  destruct (BuildRootGroupIdConditions_or_of_likes Sample.ColumnGroupPath ["g1"; "g2"] [])
    as (_ & H2 & H3).
  split.
  - rewrite H2 by discriminate. reflexivity.
  - apply (proj2 (H3 "5%" "x5%y")). exists "x", "y". reflexivity.
Defined.

Lemma AddQueryOrderDir_order_witness :
  exists col dir,
    Filter.AddQueryOrderDir {| Filter.req_sort_key := Some "name"; Filter.req_reverse := Some true |}
      "create_time" [] = [Filter.OrderQ (col ++ " " ++ dir)] /\ col = "name" /\ dir = "ASC".
Proof.
  destruct (proj1 (AddQueryOrderDir_order
                     {| Filter.req_sort_key := Some "name"; Filter.req_reverse := Some true |}
                     "create_time" []))
    as (col & dir & Heq & Hcol & _ & Hdir & _).
  exists col, dir. split; [exact Heq|]. split.
  - apply Hcol; [reflexivity | discriminate].
  - apply Hdir. split; [discriminate | reflexivity].
Defined.

(* ================================================================== *)
(** * Further properties of the code *)

(** ** User/group bindings *)

Section BindingProps.

Variable DbErr : Type.
Variable env : Binding.Env DbErr.

Local Abbreviation JoinGroup := (Binding.JoinGroup DbErr env).
Local Abbreviation LeaveGroup := (Binding.LeaveGroup DbErr env).

Lemma inGroupsUsers_true (groupIds userIds : list string) (b : Binding.UserGroupBinding) :
  Binding.inGroupsUsers groupIds userIds b = true <->
  In (Binding.ugb_group_id b) groupIds /\ In (Binding.ugb_user_id b) userIds.
Proof.
  unfold Binding.inGroupsUsers. rewrite andb_true_iff, !Contains_In. reflexivity.
Qed.

Lemma in_joinRows (userIds groupIds : list string) (b : Binding.UserGroupBinding) :
  In b (Binding.joinRows userIds groupIds) <->
  In (Binding.ugb_user_id b) userIds /\ In (Binding.ugb_group_id b) groupIds.
Proof.
  unfold Binding.joinRows. rewrite in_flat_map. split.
  - intros (g & Hg & Hb). apply in_map_iff in Hb as (u & <- & Hu). simpl. auto.
  - intros [Hu Hg]. exists (Binding.ugb_group_id b). split; [exact Hg|].
    apply in_map_iff. exists (Binding.ugb_user_id b). split; [|exact Hu].
    destruct b; reflexivity.
Qed.

Lemma length_joinRows (userIds groupIds : list string) :
  List.length (Binding.joinRows userIds groupIds)
  = (List.length userIds * List.length groupIds)%nat.
Proof.
  unfold Binding.joinRows. induction groupIds as [|g gs IH]; simpl; [lia|].
  rewrite length_app, length_map, IH. lia.
Qed.

Lemma NoDup_joinRows (userIds groupIds : list string) :
  NoDup userIds -> NoDup groupIds -> NoDup (Binding.joinRows userIds groupIds).
Proof.
  intros HU HG. induction HG as [|g gs Hg HG IH]; simpl; [constructor|].
  apply NoDup_app; [| exact IH |].
  - clear Hg HG IH. induction HU as [|u us Hu HU IHU]; simpl; constructor; [|exact IHU].
    intros Hin. apply in_map_iff in Hin as (u' & Heq & Hu').
    inversion Heq; subst. contradiction.
  - intros b Hb Hb'. apply in_map_iff in Hb as (u & <- & _).
    apply in_joinRows in Hb' as [_ Hg']. contradiction.
Qed.

Lemma txCreate_staged (staged rows result : list Binding.UserGroupBinding) :
  Binding.txCreate DbErr env staged rows = inl result -> result = (staged ++ rows)%list.
Proof.
  revert staged; induction rows as [|b rest IH]; intros staged; simpl.
  - intros H; inversion H; now rewrite app_nil_r.
  - destruct (Binding.create_err DbErr env b); [discriminate|].
    intros H. rewrite (IH _ H), <- app_assoc. reflexivity.
Qed.




Lemma UserGroupBinding_eq_dec (x y : Binding.UserGroupBinding) : {x = y} + {x <> y}.
Proof. decide equality; apply string_dec. Defined.

Lemma all_bound_or_missing (db : Binding.Table) (userIds groupIds : list string) :
  (forall u g, In u userIds -> In g groupIds -> In (Binding.NewUserGroupBinding u g) db) \/
  (exists u g, In u userIds /\ In g groupIds /\ ~ In (Binding.NewUserGroupBinding u g) db).
Proof.
  induction userIds as [|u us IH].
  - left. intros u g H; destruct H.
  - assert (Hu : (forall g, In g groupIds -> In (Binding.NewUserGroupBinding u g) db) \/
                 (exists g, In g groupIds /\ ~ In (Binding.NewUserGroupBinding u g) db)).
    { clear IH. induction groupIds as [|g gs IHg].
      - left. intros g H; destruct H.
      - destruct (in_dec UserGroupBinding_eq_dec (Binding.NewUserGroupBinding u g) db) as [Hin|Hout].
        + destruct IHg as [Hall|(g' & Hg' & Hout)].
          * left. intros g' [<-|Hg']; auto.
          * right. exists g'. split; [now right | exact Hout].
        + right. exists g. split; [now left | exact Hout]. }
    destruct Hu as [Hall_u|(g & Hg & Hout)].
    + destruct IH as [Hall|(u' & g & Hu' & Hg & Hout)].
      * left. intros u' g [<-|Hu'] Hg; auto.
      * right. exists u', g. repeat split; auto. now right.
    + right. exists u, g. repeat split; auto. now left.
Qed.

Lemma bound_count_iff (db : Binding.Table) (userIds groupIds : list string) :
  NoDup userIds -> NoDup groupIds -> NoDup db ->
  List.length (filter (Binding.inGroupsUsers groupIds userIds) db)
  = (List.length userIds * List.length groupIds)%nat <->
  (forall u g, In u userIds -> In g groupIds -> In (Binding.NewUserGroupBinding u g) db).
Proof.
  intros HU HG Hdb.
  set (F := filter (Binding.inGroupsUsers groupIds userIds) db).
  assert (HF : NoDup F) by (apply NoDup_filter; exact Hdb).
  assert (HFJ : incl F (Binding.joinRows userIds groupIds)).
  { intros b Hb. apply filter_In in Hb as [_ Hb].
    apply inGroupsUsers_true in Hb as [Hg Hu]. apply in_joinRows; auto. }
  assert (HJ := NoDup_joinRows userIds groupIds HU HG).
  rewrite <- length_joinRows. split.
  - intros Hlen u g Hu Hg.
    assert (Hincl : incl (Binding.joinRows userIds groupIds) F).
    { apply NoDup_length_incl; [exact HF | lia | exact HFJ]. }
    assert (Hin : In (Binding.NewUserGroupBinding u g) F).
    { apply Hincl, in_joinRows; simpl; auto. }
    apply filter_In in Hin as [Hin _]. exact Hin.
  - intros Hall.
    assert (Hincl : incl (Binding.joinRows userIds groupIds) F).
    { intros b Hb. apply in_joinRows in Hb as [Hu Hg].
      apply filter_In. split.
      - destruct b as [u g]. apply Hall; assumption.
      - apply inGroupsUsers_true; auto. }
    apply Nat.le_antisymm.
    + apply NoDup_incl_length; assumption.
    + apply NoDup_incl_length; assumption.
Qed.

(** X: [JoinGroup] and [LeaveGroup] reject an empty user-id or group-id
    list with [InvalidArgument] before touching the table. *)
Theorem GroupBinding_rejects_empty_ids (db : Binding.Table) (req : Binding.GroupRequest) :
  (Binding.req_UserId req = [] \/ Binding.req_GroupId req = []) ->
  JoinGroup db req = ((None, Some (Binding.InvalidArgument "empty user id or group id")), db) /\
  LeaveGroup db req = ((None, Some (Binding.InvalidArgument "empty user id or group id")), db).
Proof.
  intros H. unfold Binding.JoinGroup, Binding.LeaveGroup.
  destruct H as [H|H]; rewrite H; simpl; [split; reflexivity|].
  rewrite orb_true_r. split; reflexivity.
Qed.

(** X: [JoinGroup] is all or nothing: it either succeeds, echoing the ids
    and adding one row per (group, user) pair to the table, or returns an
    error with the table unchanged (a failed create rolls the transaction
    back). *)
Theorem JoinGroup_all_or_nothing (db : Binding.Table) (req : Binding.GroupRequest) :
  (fst (JoinGroup db req)
   = (Some {| Binding.resp_GroupId := Binding.req_GroupId req;
              Binding.resp_UserId := Binding.req_UserId req |}, None) /\
   snd (JoinGroup db req)
   = (db ++ Binding.joinRows (Binding.req_UserId req) (Binding.req_GroupId req))%list) \/
  (fst (fst (JoinGroup db req)) = None /\ snd (fst (JoinGroup db req)) <> None /\
   snd (JoinGroup db req) = db).
Proof.
  unfold Binding.JoinGroup.
  destruct (_ || _); [right; simpl; repeat split; discriminate|].
  destruct (Binding.GetUserGroupBindings _ _ _ _ _); [|right; simpl; repeat split; discriminate].
  destruct (negb _); [right; simpl; repeat split; discriminate|].
  destruct (Binding.txCreate _ _ _ _) as [staged|err] eqn:Htx;
    [|right; simpl; repeat split; discriminate].
  apply txCreate_staged in Htx. simpl in Htx. subst staged.
  destruct (Binding.commit_err _ _); [right; simpl; repeat split; discriminate|].
  left. split; reflexivity.
Qed.

(** X: [JoinGroup] refuses ([PermissionDenied], table unchanged) as soon as
    any requested (user, group) pair is already bound. *)
Theorem JoinGroup_rejects_existing_binding (db : Binding.Table) (req : Binding.GroupRequest)
    (b : Binding.UserGroupBinding) :
  Binding.req_UserId req <> [] -> Binding.req_GroupId req <> [] ->
  Binding.find_err DbErr env = None ->
  In b db -> In (Binding.ugb_user_id b) (Binding.req_UserId req) ->
  In (Binding.ugb_group_id b) (Binding.req_GroupId req) ->
  JoinGroup db req = ((None, Some (Binding.PermissionDenied "user already in group")), db).
Proof.
  intros HU HG Hf Hb Hu Hg. unfold Binding.JoinGroup, Binding.GetUserGroupBindings.
  destruct (Binding.req_UserId req) as [|u us]; [contradiction|].
  destruct (Binding.req_GroupId req) as [|g gs]; [contradiction|].
  simpl. rewrite Hf.
  assert (Hin : In b (filter (Binding.inGroupsUsers (g :: gs) (u :: us)) db)).
  { apply filter_In. split; [exact Hb|]. apply inGroupsUsers_true. auto. }
  destruct (filter _ db) as [|x xs]; [contradiction|]. reflexivity.
Qed.

(** X: after a successful [JoinGroup] every requested user is bound to
    every requested group, none of these pairs was bound before, and the
    previous rows are all kept. *)
Theorem JoinGroup_success_binds (db db' : Binding.Table) (req : Binding.GroupRequest)
    (r : Binding.GroupResponse) :
  JoinGroup db req = ((Some r, None), db') ->
  (forall u g, In u (Binding.req_UserId req) -> In g (Binding.req_GroupId req) ->
     In (Binding.NewUserGroupBinding u g) db') /\
  (forall b, In b db ->
     Binding.inGroupsUsers (Binding.req_GroupId req) (Binding.req_UserId req) b = false) /\
  incl db db'.
Proof.
  intros H. unfold Binding.JoinGroup, Binding.GetUserGroupBindings in H.
  destruct (_ || _); [discriminate|].
  destruct (Binding.find_err _ _); [discriminate|].
  destruct (filter _ db) as [|x xs] eqn:Hfil; [|discriminate].
  destruct (Binding.txCreate _ _ _ _) as [staged|err] eqn:Htx; [|discriminate].
  apply txCreate_staged in Htx. simpl in Htx. subst staged.
  destruct (Binding.commit_err _ _); [discriminate|].
  inversion H; subst db'. split; [|split].
  - intros u g Hu Hg. apply in_or_app. right. apply in_joinRows. simpl; auto.
  - intros b Hb. destruct (Binding.inGroupsUsers _ _ b) eqn:E; [|reflexivity].
    assert (Hin : In b (filter (Binding.inGroupsUsers (Binding.req_GroupId req)
                                   (Binding.req_UserId req)) db))
      by (apply filter_In; auto).
    rewrite Hfil in Hin. contradiction.
  - intros b Hb. apply in_or_app. now left.
Qed.

(** X: a successful [LeaveGroup] removes exactly the rows binding a
    requested user to a requested group and keeps every other row. *)
Theorem LeaveGroup_success_removes (db db' : Binding.Table) (req : Binding.GroupRequest)
    (r : Binding.GroupResponse) :
  LeaveGroup db req = ((Some r, None), db') ->
  forall b, In b db' <->
    In b db /\ ~ (In (Binding.ugb_group_id b) (Binding.req_GroupId req) /\
                  In (Binding.ugb_user_id b) (Binding.req_UserId req)).
Proof.
  intros H. unfold Binding.LeaveGroup in H.
  destruct (_ || _); [discriminate|].
  destruct (Binding.GetUserGroupBindings _ _ _ _ _); [|discriminate].
  destruct (negb _); [discriminate|].
  destruct (Binding.delete_err _ _); [discriminate|].
  inversion H; subst db'. intros b.
  rewrite filter_In, negb_true_iff, <- inGroupsUsers_true.
  destruct (Binding.inGroupsUsers _ _ b); intuition congruence.
Qed.

(** X: with duplicate-free id lists and table, [LeaveGroup]'s membership
    check ([len(bindings) != len(UserId)*len(GroupId)]) refuses exactly when
    some requested user is not bound to some requested group. *)
Theorem LeaveGroup_denied_iff_missing (db : Binding.Table) (req : Binding.GroupRequest) :
  NoDup (Binding.req_UserId req) -> NoDup (Binding.req_GroupId req) -> NoDup db ->
  Binding.req_UserId req <> [] -> Binding.req_GroupId req <> [] ->
  Binding.find_err DbErr env = None ->
  snd (fst (LeaveGroup db req)) = Some (Binding.PermissionDenied "user not in group") <->
  exists u g, In u (Binding.req_UserId req) /\ In g (Binding.req_GroupId req) /\
              ~ In (Binding.NewUserGroupBinding u g) db.
Proof.
  intros HU HG Hdb HUn HGn Hf.
  pose proof (bound_count_iff db _ _ HU HG Hdb) as Hc.
  unfold Binding.LeaveGroup, Binding.GetUserGroupBindings.
  replace ((List.length (Binding.req_UserId req) =? 0)%nat ||
           (List.length (Binding.req_GroupId req) =? 0)%nat) with false
    by (destruct (Binding.req_UserId req); [contradiction|];
        destruct (Binding.req_GroupId req); [contradiction|]; reflexivity).
  rewrite Hf.
  destruct (Nat.eqb_spec (List.length (filter (Binding.inGroupsUsers (Binding.req_GroupId req)
                                         (Binding.req_UserId req)) db))
              (List.length (Binding.req_UserId req) * List.length (Binding.req_GroupId req)))
    as [Heq|Hne]; simpl.
  - split.
    + destruct (Binding.delete_err _ _); simpl; discriminate.
    + intros (u & g & Hu & Hg & Hnot). exfalso. apply Hnot. now apply Hc.
  - split; [intros _|reflexivity].
    destruct (all_bound_or_missing db (Binding.req_UserId req) (Binding.req_GroupId req))
      as [Hall|Hmiss]; [|exact Hmiss].
    exfalso. apply Hne. now apply Hc.
Qed.



End BindingProps.

(** ** [ModifyPassword] and [ComparePassword] together *)

Section PasswordProps.

Variable DbErr : Type.
Variable GetBcryptPassword : string -> string.
Variable CompareHashAndPassword : string -> string -> option DbErr.
Variable recordNotFound : DbErr.

Local Abbreviation ModifyPassword := (PasswordStore.ModifyPassword DbErr GetBcryptPassword).


Lemma updatePassword_absent (rows : list PasswordStore.UserRow) (id hash : string) (now : Z) :
  (forall r, In r rows -> PasswordStore.row_user_id r <> id) ->
  PasswordStore.updatePassword rows id hash now = rows.
Proof.
  intros H. unfold PasswordStore.updatePassword.
  rewrite <- (map_id rows) at 2. apply map_ext_in. intros r Hr.
  destruct (String.eqb_spec (PasswordStore.row_user_id r) id); [|reflexivity].
  exfalso; exact (H r Hr e).
Qed.

(** X: [ModifyPassword] refuses an empty password with [InvalidArgument];
    whatever the outcome, an error leaves the user table unchanged and rows
    of other users are never modified. *)
Theorem ModifyPassword_scope (updateErr : option DbErr) (now : Z)
    (rows : list PasswordStore.UserRow) (req : PasswordStore.ModifyPasswordRequest) :
  (PasswordStore.mpr_Password req = "" ->
   ModifyPassword updateErr now rows req
   = ((None, Some (PasswordStore.InvalidArgument "empty password")), rows)) /\
  (snd (fst (ModifyPassword updateErr now rows req)) <> None ->
   snd (ModifyPassword updateErr now rows req) = rows) /\
  (forall r, In r rows -> PasswordStore.row_user_id r <> PasswordStore.mpr_UserId req ->
   In r (snd (ModifyPassword updateErr now rows req))).
Proof.
  unfold PasswordStore.ModifyPassword. split; [|split].
  - intros H. now rewrite H.
  - destruct (String.eqb _ _); [reflexivity|].
    destruct updateErr; [reflexivity|]. simpl. intros H; now contradiction H.
  - intros r Hr Hne. destruct (String.eqb _ _); [exact Hr|].
    destruct updateErr; [exact Hr|]. simpl.
    unfold PasswordStore.updatePassword. apply in_map_iff. exists r. split; [|exact Hr].
    destruct (String.eqb_spec (PasswordStore.row_user_id r) (PasswordStore.mpr_UserId req));
      [contradiction | reflexivity].
Qed.

(** X: [ModifyPassword] for a user id with no row still answers success
    (echoing the id) and changes nothing. *)
Theorem ModifyPassword_unknown_user (now : Z) (rows : list PasswordStore.UserRow)
    (req : PasswordStore.ModifyPasswordRequest) :
  PasswordStore.mpr_Password req <> "" ->
  (forall r, In r rows -> PasswordStore.row_user_id r <> PasswordStore.mpr_UserId req) ->
  ModifyPassword None now rows req
  = ((Some {| PasswordStore.mpr_resp_UserId := PasswordStore.mpr_UserId req |}, None), rows).
Proof.
  intros Hp Habs. unfold PasswordStore.ModifyPassword.
  destruct (String.eqb_spec (PasswordStore.mpr_Password req) ""); [contradiction|].
  now rewrite updatePassword_absent.
Qed.


End PasswordProps.

(** ** Pagination, display columns and field names *)

(** X: the limit [GetLimitFromRequest] returns is always between 1 and 200,
    while the offset [GetOffsetFromRequest] returns is the request's offset
    unchanged (it has no upper bound). *)
Theorem Pagination_bounds (req : Pagination.Page) :
  (1 <= Pagination.GetLimitFromRequest req <= 200)%N /\
  Pagination.GetOffsetFromRequest req = Pagination.req_offset req.
Proof.
  unfold Pagination.GetLimitFromRequest, Pagination.GetLimit, Pagination.GetOffsetFromRequest,
    Pagination.GetOffset, Pagination.DefaultLimit, Pagination.DefaultSelectLimit,
    Pagination.DefaultOffset.
  destruct req as [o n]; simpl. split.
  - destruct (N.eqb_spec n 0); [lia|].
    destruct (N.ltb_spec n 0); [lia|].
    destruct (N.ltb_spec 200 n); lia.
  - destruct (N.eqb_spec o 0); [now subst|].
    destruct (N.ltb_spec o 0); [lia|reflexivity].
Qed.

(** X: a non-nil [displayColumns] list only ever yields columns that were
    both requested and present in [wholeColumns]. *)
Theorem GetDisplayColumns_subset (displayColumns : list string) (wholeColumns : Columns.Slice)
    (x : string) :
  In x (Columns.elems (Columns.GetDisplayColumns (Some displayColumns) wholeColumns)) ->
  In x displayColumns /\ In x (Columns.elems wholeColumns).
Proof.
  destruct displayColumns as [|d ds]; [simpl; tauto|].
  unfold Columns.GetDisplayColumns.
  rewrite (GetDisplayColumns_fold wholeColumns (d :: ds) None). cbn [Columns.elems app].
  intros Hx. apply filter_In in Hx as [Hx Hc]. apply Contains_In in Hc. auto.
Qed.

(** X: when none of the requested columns is known, [GetDisplayColumns]
    returns nil, which [GetDisplayColumns] itself reads as "all columns":
    projecting that result again gives the whole column list. *)
Theorem GetDisplayColumns_none_known (displayColumns : list string)
    (wholeColumns : Columns.Slice) :
  displayColumns <> [] ->
  (forall x, In x displayColumns -> ~ In x (Columns.elems wholeColumns)) ->
  Columns.GetDisplayColumns (Some displayColumns) wholeColumns = None /\
  Columns.GetDisplayColumns (Columns.GetDisplayColumns (Some displayColumns) wholeColumns)
    wholeColumns = wholeColumns.
Proof.
  intros Hne Hnone.
  assert (H : Columns.GetDisplayColumns (Some displayColumns) wholeColumns = None).
  { destruct displayColumns as [|d ds]; [contradiction|].
    unfold Columns.GetDisplayColumns.
    assert (Hgen : forall l acc, (forall x, In x l -> ~ In x (Columns.elems wholeColumns)) ->
              fold_left (fun newDisplayColumns column =>
                           if Contains (Columns.elems wholeColumns) column
                           then Columns.append newDisplayColumns column
                           else newDisplayColumns) l acc = acc).
    { induction l as [|y ys IH]; intros acc Hl; [reflexivity|]. simpl.
      destruct (Contains (Columns.elems wholeColumns) y) eqn:Hy.
      - apply Contains_In in Hy. exfalso. exact (Hl y (or_introl eq_refl) Hy).
      - apply IH. intros x Hx. apply Hl. now right. }
    apply Hgen. exact Hnone. }
  split; [exact H|]. rewrite H. reflexivity.
Qed.

Lemma SplitComma_app_commafree (a s : string) :
  (forall c, In c (list_ascii_of_string a) -> c <> ","%char) ->
  SplitComma (a ++ s) = match SplitComma s with
                        | h :: t => (a ++ h) :: t
                        | [] => [a]
                        end.
Proof.
  induction a as [|c a IH]; intros Hc; simpl.
  - destruct (SplitComma s) eqn:E; [exfalso; exact (SplitComma_not_nil s E)|reflexivity].
  - rewrite IH by (intros c' Hc'; apply Hc; now right).
    destruct (Ascii.eqb_spec c ","); [exfalso; exact (Hc c (or_introl eq_refl) e)|].
    destruct (SplitComma s); reflexivity.
Qed.

(** X: the column name of a field is the text of its [json] tag before the
    first comma ([user_id] for [json:"user_id,omitempty"]), and the whole
    tag when it has no comma. *)
Theorem getFieldName_before_comma (f : Filter.Field) (a b : string) :
  (forall c, In c (list_ascii_of_string a) -> c <> ","%char) ->
  (Filter.Tag f Filter.TagName = a ++ String "," b \/ Filter.Tag f Filter.TagName = a) ->
  Filter.getFieldName f = a.
Proof.
  intros Hc Htag. unfold Filter.getFieldName.
  destruct Htag as [Ht|Ht]; rewrite Ht.
  - rewrite SplitComma_app_commafree by exact Hc. simpl. apply string_append_nil_r.
  - rewrite <- (string_append_nil_r a) at 1.
    rewrite SplitComma_app_commafree by exact Hc. simpl. apply string_append_nil_r.
Qed.

(** ** The filter builder: fields that are not filters, excluded columns *)

Section BuilderMore.

Variable IndexedColumns : string -> option (list string).
Variable SearchColumns : string -> list string.
Variable SearchWordColumnTable : list string.

(** X: a request field whose column is not indexed for the table and that
    is not a search word of a search-capable table leaves the chain and the
    log exactly as they were. *)
Theorem filterField_ignores_unrelated (tableName : string) (exclude : list string)
    (c : Filter.Chain) (logs : list Filter.Log) (f : Filter.Field) :
  (forall cols, IndexedColumns tableName = Some cols -> ~ In (Filter.getFieldName f) cols) ->
  (Filter.getFieldName f <> Filter.SearchWordColumnName \/
   ~ In tableName SearchWordColumnTable) ->
  Filter.filterField IndexedColumns SearchColumns SearchWordColumnTable tableName exclude
    (c, logs) f = (c, logs).
Proof.
  intros Hidx Hsw. unfold Filter.filterField.
  assert (Hc1 : match IndexedColumns tableName with
                | Some cols => Contains cols (Filter.getFieldName f)
                | None => false end = false).
  { destruct (IndexedColumns tableName) as [cols|] eqn:Hi; [|reflexivity].
    destruct (Contains cols _) eqn:Hc; [|reflexivity].
    apply Contains_In in Hc. exfalso. exact (Hidx cols eq_refl Hc). }
  assert (Hs : (String.eqb (Filter.getFieldName f) Filter.SearchWordColumnName &&
                Contains SearchWordColumnTable tableName) = false).
  { destruct Hsw as [H|H].
    - apply String.eqb_neq in H. now rewrite H.
    - destruct (Contains SearchWordColumnTable tableName) eqn:E; [|apply andb_false_r].
      apply Contains_In in E. contradiction. }
  rewrite Hs.
  destruct (IndexedColumns tableName) as [cols|]; [|reflexivity].
  rewrite Hc1. reflexivity.
Qed.

(** X: when every searchable column of the table is excluded, the search
    step adds only the empty condition (which gorm drops) whatever the
    terms, and logs nothing. *)
Theorem getSearchFilter_all_excluded (tableName : string) (vs exclude : list string)
    (c : Filter.Chain) :
  (forall column, In column (SearchColumns tableName) -> In column exclude) ->
  Filter.getSearchFilter SearchColumns tableName (Some (Filter.VStrings vs)) exclude c
  = ((c ++ [Filter.WhereQ "" []])%list, []) /\
  Filter.effective (fst (Filter.getSearchFilter SearchColumns tableName
                           (Some (Filter.VStrings vs)) exclude c)) = Filter.effective c.
Proof.
  intros Hex.
  assert (Hnil : forall v, flat_map (fun column =>
                    if Contains exclude column then []
                    else [Filter.searchCondition v column]) (SearchColumns tableName) = []).
  { intros v. induction (SearchColumns tableName) as [|col cols IH]; [reflexivity|].
    simpl. assert (Hcol : Contains exclude col = true)
      by (apply Contains_In, Hex; now left).
    rewrite Hcol. apply IH. intros column Hc. apply Hex. now right. }
  assert (Hall : flat_map (fun v => flat_map (fun column =>
                    if Contains exclude column then []
                    else [Filter.searchCondition v column]) (SearchColumns tableName)) vs = []).
  { induction vs as [|v vs' IH]; [reflexivity|]. simpl. rewrite Hnil. exact IH. }
  assert (Hg : Filter.getSearchFilter SearchColumns tableName (Some (Filter.VStrings vs)) exclude c
               = ((c ++ [Filter.WhereQ "" []])%list, [])).
  { unfold Filter.getSearchFilter. rewrite Hall. reflexivity. }
  split; [exact Hg|]. rewrite Hg. unfold Filter.effective. simpl.
  rewrite filter_app. simpl. apply app_nil_r.
Qed.

End BuilderMore.

(* ================================================================== *)
(** * Further properties on concrete inputs *)

Lemma GroupBinding_rejects_empty_ids_witness :
  Binding.JoinGroup string SampleStore.okEnv []
    {| Binding.req_UserId := []; Binding.req_GroupId := ["g1"] |}
  = ((None, Some (Binding.InvalidArgument "empty user id or group id")), []) /\
  Binding.LeaveGroup string SampleStore.okEnv []
    {| Binding.req_UserId := []; Binding.req_GroupId := ["g1"] |}
  = ((None, Some (Binding.InvalidArgument "empty user id or group id")), []).
Proof. apply GroupBinding_rejects_empty_ids. left; reflexivity. Defined.

Lemma JoinGroup_rejects_existing_binding_witness :
  Binding.JoinGroup string SampleStore.okEnv [SampleStore.bind "u1" "g1"]
    {| Binding.req_UserId := ["u2"; "u1"]; Binding.req_GroupId := ["g1"] |}
  = ((None, Some (Binding.PermissionDenied "user already in group")), [SampleStore.bind "u1" "g1"]).
Proof.
  apply (JoinGroup_rejects_existing_binding string SampleStore.okEnv _ _
           (SampleStore.bind "u1" "g1")); simpl; auto; discriminate.
Defined.

Lemma JoinGroup_success_binds_witness :
  (forall u g, In u ["u1"; "u2"] -> In g ["g1"] ->
     In (Binding.NewUserGroupBinding u g) [SampleStore.bind "u1" "g1"; SampleStore.bind "u2" "g1"]) /\
  (forall b, In b [] -> Binding.inGroupsUsers ["g1"] ["u1"; "u2"] b = false) /\
  incl [] [SampleStore.bind "u1" "g1"; SampleStore.bind "u2" "g1"].
Proof.
  apply (JoinGroup_success_binds string SampleStore.okEnv [] _
           {| Binding.req_UserId := ["u1"; "u2"]; Binding.req_GroupId := ["g1"] |}
           {| Binding.resp_GroupId := ["g1"]; Binding.resp_UserId := ["u1"; "u2"] |}).
  reflexivity.
Defined.

Lemma LeaveGroup_success_removes_witness :
  In (SampleStore.bind "u2" "g1") [SampleStore.bind "u2" "g1"] <->
    In (SampleStore.bind "u2" "g1") [SampleStore.bind "u1" "g1"; SampleStore.bind "u2" "g1"] /\
    ~ (In (Binding.ugb_group_id (SampleStore.bind "u2" "g1")) ["g1"] /\
       In (Binding.ugb_user_id (SampleStore.bind "u2" "g1")) ["u1"]).
Proof.
  apply (LeaveGroup_success_removes string SampleStore.okEnv
           [SampleStore.bind "u1" "g1"; SampleStore.bind "u2" "g1"] _
           {| Binding.req_UserId := ["u1"]; Binding.req_GroupId := ["g1"] |}
           {| Binding.resp_GroupId := ["g1"]; Binding.resp_UserId := ["u1"] |}).
  reflexivity.
Defined.

Lemma LeaveGroup_denied_iff_missing_witness :
  snd (fst (Binding.LeaveGroup string SampleStore.okEnv [SampleStore.bind "u1" "g1"]
              {| Binding.req_UserId := ["u1"; "u2"]; Binding.req_GroupId := ["g1"] |}))
  = Some (Binding.PermissionDenied "user not in group") <->
  exists u g, In u ["u1"; "u2"] /\ In g ["g1"] /\
              ~ In (Binding.NewUserGroupBinding u g) [SampleStore.bind "u1" "g1"].
Proof.
  apply (LeaveGroup_denied_iff_missing string SampleStore.okEnv [SampleStore.bind "u1" "g1"]
           {| Binding.req_UserId := ["u1"; "u2"]; Binding.req_GroupId := ["g1"] |});
    simpl; try discriminate; try reflexivity;
    repeat constructor; simpl; intuition discriminate.
Defined.



Lemma ModifyPassword_scope_witness :
  PasswordStore.ModifyPassword string SampleStore.hashOf None 5 SampleStore.userRows
    {| PasswordStore.mpr_UserId := "u1"; PasswordStore.mpr_Password := "" |}
  = ((None, Some (PasswordStore.InvalidArgument "empty password")), SampleStore.userRows).
Proof.
  apply (proj1 (ModifyPassword_scope string SampleStore.hashOf None 5 SampleStore.userRows
                  {| PasswordStore.mpr_UserId := "u1"; PasswordStore.mpr_Password := "" |})).
  reflexivity.
Defined.

Lemma ModifyPassword_unknown_user_witness :
  PasswordStore.ModifyPassword string SampleStore.hashOf None 5 SampleStore.userRows
    {| PasswordStore.mpr_UserId := "nobody"; PasswordStore.mpr_Password := "pw" |}
  = ((Some {| PasswordStore.mpr_resp_UserId := "nobody" |}, None), SampleStore.userRows).
Proof.
  apply ModifyPassword_unknown_user; [discriminate|].
  intros r [<-|[]]; discriminate.
Defined.


Lemma GetDisplayColumns_subset_witness :
  In "a" ["a"; "z"] /\ In "a" ["a"; "b"].
Proof.
  apply (GetDisplayColumns_subset ["a"; "z"] (Some ["a"; "b"]) "a"). simpl; auto.
Defined.

Lemma GetDisplayColumns_none_known_witness :
  Columns.GetDisplayColumns (Some ["z"]) (Some ["a"; "b"]) = None /\
  Columns.GetDisplayColumns (Columns.GetDisplayColumns (Some ["z"]) (Some ["a"; "b"]))
    (Some ["a"; "b"]) = Some ["a"; "b"].
Proof.
  apply GetDisplayColumns_none_known; [discriminate|].
  intros x [<-|[]]; simpl; intuition discriminate.
Defined.

Lemma getFieldName_before_comma_witness :
  Filter.getFieldName (Sample.userIdField (Filter.PString "u1")) = "user_id".
Proof.
  apply (getFieldName_before_comma _ "user_id" "omitempty").
  - intros c Hc. simpl in Hc.
    repeat (destruct Hc as [Hc|Hc]; [subst c; discriminate|]). contradiction.
  - left; reflexivity.
Defined.

Lemma filterField_ignores_unrelated_witness :
  Filter.filterField Sample.IndexedColumns Sample.SearchColumns Sample.SearchWordColumnTable
    "user" [] ([], [])
    {| Filter.field_tags := [("json", "name")]; Filter.field_value := Filter.PString "bob" |}
  = ([], []).
Proof.
  apply filterField_ignores_unrelated.
  - intros cols H. simpl in H. inversion H; subst cols. simpl. intuition discriminate.
  - left. discriminate.
Defined.

Lemma getSearchFilter_all_excluded_witness :
  Filter.getSearchFilter Sample.SearchColumns "user" (Some (Filter.VStrings ["a%"])) ["name"] []
  = ([Filter.WhereQ "" []], []) /\
  Filter.effective (fst (Filter.getSearchFilter Sample.SearchColumns "user"
                           (Some (Filter.VStrings ["a%"])) ["name"] [])) = [].
Proof.
  apply (getSearchFilter_all_excluded Sample.SearchColumns "user" ["a%"] ["name"] []).
  intros column H. simpl in H. exact H.
Defined.
